(** * EnergyZero sensors (sensor.py): value derivation and hourly rendering

    A shallow embedding of [sensor.py]: the table [SENSORS] of value
    functions, [get_gas_price] and [process_timestamp_prices], followed by
    the properties of the price views.

    Conventions of the embedding.
    - A Python [datetime] is its wall clock, counted in microseconds from a
      midnight taken as origin, together with its [tzinfo] attribute.  The
      count is unbounded; the ends of the range of [datetime], years 1 and
      9999, come in with [Module Strict].
    - A Python [float] is an IEEE 754 binary64 value, [SpecFloat.spec_float].
    - A [dict] is the list of its items in insertion order, the order in
      which [dict.items()] yields them.
    - The snapshot ([EnergyZeroData]) is the state threaded through every view;
      a view returns its result together with the snapshot it leaves behind.
    - [process_timestamp_prices] is first given on the path where the steps
      it takes from the platform return; [Module Strict] adds the two that
      can raise, and reduces to it when they do not. *)

From Stdlib Require Import ZArith List String Ascii Bool Lia.
From Stdlib Require Import Sorted Permutation.
From Stdlib Require Import SpecFloat DecimalString.
Import ListNotations.

Local Open Scope string_scope.
Local Open Scope Z_scope.

(** ** Python values *)

Module Py.

(** [datetime.timedelta], in microseconds. *)
Definition timedelta := Z.

Definition usec_per_hour : Z := 3600000000.
Definition usec_per_day : Z := 24 * usec_per_hour.

(** [timedelta(hours=h)] *)
Definition timedelta_hours (h : Z) : timedelta := h * usec_per_hour.

(** A time zone, from both sides: the offset in force at a UTC instant,
    which is what [tzinfo.fromutc] adds to it, and the offset
    [tzinfo.utcoffset] reads off a wall clock of the zone (the first of two
    readings where a wall clock repeats, [fold] being 0). *)
Record tzinfo : Type := {
  utcoffset_at : Z -> timedelta;
  utcoffset : Z -> timedelta
}.

(** [dt_util.UTC] *)
Definition UTC : tzinfo :=
  {| utcoffset_at := fun _ => 0; utcoffset := fun _ => 0 |}.

(** A zone with one fixed offset, such as UTC+1. *)
Definition fixed_offset (hours : Z) : tzinfo :=
  {| utcoffset_at := fun _ => timedelta_hours hours;
     utcoffset := fun _ => timedelta_hours hours |}.

Record datetime : Type := mk_datetime {
  wall : Z;                    (* year .. microsecond, as one count *)
  dt_tzinfo : option tzinfo    (* None for a naive datetime *)
}.

(** [d.replace(tzinfo=z)] keeps the wall clock and swaps the zone. *)
Definition replace_tzinfo (d : datetime) (z : option tzinfo) : datetime :=
  {| wall := wall d; dt_tzinfo := z |}.

(** [d + td] *)
Definition datetime_add (d : datetime) (td : timedelta) : datetime :=
  {| wall := wall d + td; dt_tzinfo := dt_tzinfo d |}.

(** [d.hour] *)
Definition hour (d : datetime) : Z := (wall d / usec_per_hour) mod 24.


(** [==] and [<] between two naive datetimes. *)
Definition datetime_eqb (a b : datetime) : bool := wall a =? wall b.
Definition datetime_ltb (a b : datetime) : bool := wall a <? wall b.

(** [float] *)
Definition float := spec_float.

(** Nearest integer to [n / d] for [0 < d], ties to the even neighbour. *)
Definition round_half_even (n d : Z) : Z :=
  let q := n / d in
  let r := n mod d in
  if 2 * r <? d then q
  else if d <? 2 * r then q + 1
  else if Z.even q then q else q + 1.

(** The magnitude [m * 2^e], correctly rounded to a whole number of
    hundredths. *)
Definition hundredths (m : positive) (e : Z) : Z :=
  if 0 <=? e then Z.pos m * 2 ^ e * 100
  else round_half_even (Z.pos m * 100) (2 ^ (- e)).

(** [str(n)] for [0 <= n]. *)
Definition decimal (n : Z) : string :=
  NilZero.string_of_uint (N.to_uint (Z.to_N n)).

Definition sign_str (s : bool) : string := if s then "-" else "".

(** [format(v, ".2f")] *)
Definition format_2f (v : float) : string :=
  match v with
  | S754_nan => "nan"
  | S754_infinity s => sign_str s ++ "inf"
  | S754_zero s => sign_str s ++ "0.00"
  | S754_finite s m e =>
      let c := hundredths m e in
      sign_str s ++ decimal (c / 100) ++ "."
        ++ decimal (c mod 100 / 10) ++ decimal (c mod 10)
  end.

(** [format(n, "d")] *)
Definition format_d (n : Z) : string :=
  if n <? 0 then "-" ++ decimal (- n) else decimal n.

(** [format(n, "02d")]: zero padded to a width of two. *)
Definition format_02d (n : Z) : string :=
  let s := format_d n in
  if (String.length s <? 2)%nat then "0" ++ s else s.

(** [sep.join(parts)] *)
Definition join (sep : string) (parts : list string) : string :=
  String.concat sep parts.

(** [s.split(sep)] for a one-character separator. *)
Fixpoint split (sep : ascii) (s : string) : list string :=
  match s with
  | EmptyString => [EmptyString]
  | String c r =>
      if Ascii.eqb c sep then EmptyString :: split sep r
      else match split sep r with
           | t :: ts => String c t :: ts
           | [] => [String c EmptyString]
           end
  end.

(** A [dict], as its items in insertion order. *)
Definition dict (K V : Type) : Type := list (K * V).
Definition items {K V : Type} (d : dict K V) : list (K * V) := d.

(** Stable insertion: [x] goes in front of the first element it is less
    than. *)
Fixpoint insort {A : Type} (lt : A -> A -> bool) (x : A) (l : list A) : list A :=
  match l with
  | [] => [x]
  | y :: l' => if lt x y then x :: y :: l' else y :: insort lt x l'
  end.

(** [sorted(l)]: a stable sort by [<].  Python's sort is stable, and on a
    comparison that is a strict weak order every stable sort returns this
    list. *)
Definition sorted {A : Type} (lt : A -> A -> bool) (l : list A) : list A :=
  fold_left (fun acc x => insort lt x acc) l [].

(** [<] on tuples [(datetime, float)]: the first components that differ
    decide. *)
Definition tuple_lt (x y : datetime * float) : bool :=
  if negb (datetime_eqb (fst x) (fst y)) then datetime_ltb (fst x) (fst y)
  else if negb (SFeqb (snd x) (snd y)) then SFltb (snd x) (snd y)
  else false.

End Py.
Import Py.

(** ** The platform: [homeassistant.core] and [homeassistant.util.dt] *)

Record Config : Type := { time_zone : string }.
Record HomeAssistant : Type := { config : Config }.

(** What a view reads besides the snapshot: the clock, and the [dt_util]
    module with its time zone data base and its default time zone. *)
Record Env : Type := {
  clock : datetime;                          (* datetime.now(timezone.utc) *)
  get_time_zone : string -> option tzinfo;   (* dt_util.get_time_zone *)
  DEFAULT_TIME_ZONE : tzinfo                 (* dt_util.DEFAULT_TIME_ZONE *)
}.

(** [dt_util.as_local]: a naive datetime is taken to be local already and
    only gets the default time zone; an aware one is moved, through the UTC
    instant its own zone gives it, to the wall clock of the default time
    zone.  (The source returns an argument whose zone is the default zone
    object as it is; for the arguments of this module, which are tagged
    UTC, the conversion gives the same.) *)
Definition as_local (env : Env) (dattim : datetime) : datetime :=
  match dt_tzinfo dattim with
  | None =>
      {| wall := wall dattim; dt_tzinfo := Some (DEFAULT_TIME_ZONE env) |}
  | Some zone =>
      let utc := wall dattim - utcoffset zone (wall dattim) in
      {| wall := utc + utcoffset_at (DEFAULT_TIME_ZONE env) utc;
         dt_tzinfo := Some (DEFAULT_TIME_ZONE env) |}
  end.

(** ** The snapshot: [coordinator.EnergyZeroData] over the energyzero models *)

Module Electricity.
Record t : Type := { prices : dict datetime float }.
End Electricity.

Module Gas.
Record t : Type := { prices : dict datetime float }.
End Gas.

Record EnergyZeroData : Type := {
  energy_today : Electricity.t;
  gas_today : option Gas.t
}.

(** ** Effects: a view returns or raises, and leaves a snapshot behind *)

Inductive exn : Type :=
| AttributeError
| ValueError
| OverflowError
| LibraryError (name : string).

Inductive result (A : Type) : Type :=
| Ok (a : A)
| Raise (e : exn).
Arguments Ok {A} a.
Arguments Raise {A} e.

Definition View (A : Type) : Type := EnergyZeroData -> result A * EnergyZeroData.

Definition ret {A : Type} (a : A) : View A := fun data => (Ok a, data).

Definition bind {A B : Type} (m : View A) (k : A -> View B) : View B :=
  fun data =>
    match m data with
    | (Ok a, data') => k a data'
    | (Raise e, data') => (Raise e, data')
    end.

Notation "x <- m ;; k" := (bind m (fun x => k))
  (at level 61, m at next level, right associativity).

(** Reading an attribute of the snapshot. *)
Definition attr {A : Type} (f : EnergyZeroData -> A) : View A :=
  fun data => (Ok (f data), data).

(** A method or property of a model object of class [S]: given the clock
    it returns or raises, and leaves the object in some state. *)
Definition Method (S A : Type) : Type := datetime -> S -> result A * S.

(** The members of the energyzero classes [Electricity] and [Gas] that
    [sensor.py] uses besides [prices] and [utcnow].  The package is not part
    of this repository: its members are taken as they come. *)
Record Models : Type := {
  Electricity_current_price : Method Electricity.t (option float);
  Electricity_price_at_time : datetime -> Method Electricity.t (option float);
  Electricity_average_price : Method Electricity.t float;
  Electricity_extreme_prices : Method Electricity.t (float * float);
  Electricity_highest_price_time : Method Electricity.t datetime;
  Electricity_lowest_price_time : Method Electricity.t datetime;
  Electricity_pct_of_max_price : Method Electricity.t float;
  Electricity_hours_priced_equal_or_lower : Method Electricity.t Z;
  Gas_current_price : Method Gas.t (option float);
  Gas_price_at_time : datetime -> Method Gas.t (option float)
}.

(** The state of a sensor: [float | datetime | str | None], and [int] for
    the count of hours. *)
Inductive value : Type :=
| VNone
| VFloat (x : float)
| VInt (n : Z)
| VDatetime (d : datetime)
| VStr (s : string).

Definition of_price (p : option float) : value :=
  match p with Some x => VFloat x | None => VNone end.

(** ** sensor.py *)

Section Sensor.

Variable env : Env.
Variable lib : Models.

(** [data.energy_today.m]: the member runs on the electricity object. *)
Definition on_energy {A : Type} (m : Method Electricity.t A) : View A :=
  fun data =>
    let (r, e') := m (clock env) (energy_today data) in
    (r, {| energy_today := e'; gas_today := gas_today data |}).

(** [data.gas_today.m]: the member runs on the gas object; there is none
    to find on [None]. *)
Definition on_gas {A : Type} (m : Method Gas.t A) : View A :=
  fun data =>
    match gas_today data with
    | Some g =>
        let (r, g') := m (clock env) g in
        (r, {| energy_today := energy_today data; gas_today := Some g' |})
    | None => (Raise AttributeError, data)
    end.

(** [data.energy_today.utcnow()] and [data.gas_today.utcnow()]: the current
    UTC instant. *)
Definition energy_utcnow : View datetime :=
  on_energy (fun now e => (Ok now, e)).
Definition gas_utcnow : View datetime :=
  on_gas (fun now g => (Ok now, g)).

Definition process_timestamp_prices (hass : HomeAssistant) : View string :=
  prices <- attr (fun data => Electricity.prices (energy_today data)) ;;
  let local_tz := get_time_zone env (time_zone (config hass)) in
  (* Convert UTC times to local timezone and sort *)
  let local_prices :=
    sorted tuple_lt
      (map (fun '(k, v) =>
              (replace_tzinfo (as_local env (replace_tzinfo k (Some UTC))) None, v))
           (items prices)) in
  (* Create the string with sorted, timezone-adjusted prices *)
  ret (join ","
         (map (fun '(k, v) => format_02d (hour k) ++ ":" ++ format_2f v)
              local_prices)).

Definition get_gas_price (hours : Z) : View (option float) :=
  gas <- attr gas_today ;;
  match gas with
  | None => ret None
  | Some _ =>
      now <- gas_utcnow ;;
      on_gas (Gas_price_at_time lib (datetime_add now (timedelta_hours hours)))
  end.

(** The entries of [SENSORS], named by service type and key. *)
Inductive sensor : Type :=
| today_gas_current_hour_price
| today_gas_next_hour_price
| today_energy_current_hour_price
| today_energy_next_hour_price
| today_energy_average_price
| today_energy_max_price
| today_energy_min_price
| today_energy_highest_price_time
| today_energy_lowest_price_time
| today_energy_percentage_of_max
| today_energy_hours_priced_equal_or_lower
| today_energy_timestamp_prices.

(** [description.value_fn], applied as [native_value] applies it: to
    [(hass, data)] for the key [timestamp_prices] and to [data] otherwise. *)
Definition value_fn (hass : HomeAssistant) (s : sensor) : View value :=
  match s with
  | today_gas_current_hour_price =>
      gas <- attr gas_today ;;
      match gas with
      | Some _ => p <- on_gas (Gas_current_price lib) ;; ret (of_price p)
      | None => ret VNone
      end
  | today_gas_next_hour_price =>
      p <- get_gas_price 1 ;; ret (of_price p)
  | today_energy_current_hour_price =>
      p <- on_energy (Electricity_current_price lib) ;; ret (of_price p)
  | today_energy_next_hour_price =>
      now <- energy_utcnow ;;
      p <- on_energy
             (Electricity_price_at_time lib (datetime_add now (timedelta_hours 1))) ;;
      ret (of_price p)
  | today_energy_average_price =>
      x <- on_energy (Electricity_average_price lib) ;; ret (VFloat x)
  | today_energy_max_price =>
      x <- on_energy (Electricity_extreme_prices lib) ;; ret (VFloat (snd x))
  | today_energy_min_price =>
      x <- on_energy (Electricity_extreme_prices lib) ;; ret (VFloat (fst x))
  | today_energy_highest_price_time =>
      d <- on_energy (Electricity_highest_price_time lib) ;; ret (VDatetime d)
  | today_energy_lowest_price_time =>
      d <- on_energy (Electricity_lowest_price_time lib) ;; ret (VDatetime d)
  | today_energy_percentage_of_max =>
      x <- on_energy (Electricity_pct_of_max_price lib) ;; ret (VFloat x)
  | today_energy_hours_priced_equal_or_lower =>
      n <- on_energy (Electricity_hours_priced_equal_or_lower lib) ;; ret (VInt n)
  | today_energy_timestamp_prices =>
      s <- process_timestamp_prices hass ;; ret (VStr s)
  end.

End Sensor.

(** ** Reading a rendered string back *)















(** ** Names for the steps of [process_timestamp_prices] *)

(** The naive local datetime an entry is sorted and rendered by. *)
Definition localize (env : Env) (kv : datetime * float) : datetime * float :=
  (replace_tzinfo (as_local env (replace_tzinfo (fst kv) (Some UTC))) None, snd kv).

(** The token of one sorted entry. *)
Definition token (kv : datetime * float) : string :=
  format_02d (hour (fst kv)) ++ ":" ++ format_2f (snd kv).

(** The string a snapshot renders to. *)
Definition rendered (env : Env) (hass : HomeAssistant) (data : EnergyZeroData)
  : result string :=
  fst (process_timestamp_prices env hass data).


Definition wall_le (x y : datetime * float) : Prop := wall (fst x) <= wall (fst y).

(** The binary64 value nearest to 0.24, which is what the literal [0.24]
    denotes. *)
Definition f024 : float := S754_finite false 8646911284551352 (-55).

(** ** Sample inputs *)

(** A small time zone data base: UTC, and the fixed zone one hour east. *)
Definition sample_zones (name : string) : option tzinfo :=
  if String.eqb name "UTC" then Some UTC
  else if String.eqb name "Etc/GMT-1" then Some (fixed_offset 1)
  else None.

(** A platform configured for UTC, and one configured for UTC+1; in both
    the default time zone of [dt_util] is the configured one. *)
Definition env_utc : Env :=
  {| clock := mk_datetime (13 * usec_per_hour) (Some UTC);
     get_time_zone := sample_zones;
     DEFAULT_TIME_ZONE := UTC |}.
Definition hass_utc : HomeAssistant := {| config := {| time_zone := "UTC" |} |}.

Definition env_plus1 : Env :=
  {| clock := mk_datetime (13 * usec_per_hour) (Some UTC);
     get_time_zone := sample_zones;
     DEFAULT_TIME_ZONE := fixed_offset 1 |}.
Definition hass_plus1 : HomeAssistant :=
  {| config := {| time_zone := "Etc/GMT-1" |} |}.

(** [n] consecutive hourly entries from hour number [start] on, all at one
    price, keyed by UTC datetimes. *)
Definition hourly (start : Z) (n : nat) (price : float) : dict datetime float :=
  map (fun i => (mk_datetime ((start + Z.of_nat i) * usec_per_hour) (Some UTC), price))
      (seq 0 n).

Definition snapshot (prices : dict datetime float) (gas : option Gas.t)
  : EnergyZeroData :=
  {| energy_today := {| Electricity.prices := prices |}; gas_today := gas |}.



(** ** Reading the views *)

(** [service_type] of an entry of [SENSORS]. *)
Definition service_type (s : sensor) : string :=
  match s with
  | today_gas_current_hour_price | today_gas_next_hour_price => "today_gas"
  | _ => "today_energy"
  end.

Definition result_map {A B : Type} (f : A -> B) (r : result A) : result B :=
  match r with
  | Ok a => Ok (f a)
  | Raise e => Raise e
  end.

(** A member that leaves its object as it found it. *)
Definition unchanged {S A : Type} (m : Method S A) : Prop :=
  forall now s, snd (m now s) = s.

(** The members of the models only read their object. *)
Record read_only (lib : Models) : Prop := {
  ro_current_price : unchanged (Electricity_current_price lib);
  ro_price_at_time : forall t, unchanged (Electricity_price_at_time lib t);
  ro_average_price : unchanged (Electricity_average_price lib);
  ro_extreme_prices : unchanged (Electricity_extreme_prices lib);
  ro_highest_price_time : unchanged (Electricity_highest_price_time lib);
  ro_lowest_price_time : unchanged (Electricity_lowest_price_time lib);
  ro_pct_of_max_price : unchanged (Electricity_pct_of_max_price lib);
  ro_hours_priced_equal_or_lower :
    unchanged (Electricity_hours_priced_equal_or_lower lib);
  ro_gas_current_price : unchanged (Gas_current_price lib);
  ro_gas_price_at_time : forall t, unchanged (Gas_price_at_time lib t)
}.

(** ** A sample of the energyzero members *)

Module Sample.

(** Modelled from the spec: priceAt of section 4.1, the price of the hour
    that contains the instant, or none.  The energyzero classes are not part
    of this repository; this module follows the operations of section 4.1,
    without the rounding for display, to instantiate the theorems on the
    views. *)
Definition price_at (series : dict datetime float) (t : datetime) : option float :=
  match find (fun kv => (wall (fst kv) <=? wall t)
                        && (wall t <? wall (fst kv) + usec_per_hour)) series with
  | Some kv => Some (snd kv)
  | None => None
  end.

(** Modelled from the spec: extremeTimes, where of several hours with the
    extreme price the earliest is reported; the first entry that no later
    entry beats. *)
Fixpoint extreme (better : float -> float -> bool) (best : datetime * float)
  (l : list (datetime * float)) : datetime * float :=
  match l with
  | [] => best
  | kv :: r => extreme better (if better (snd kv) (snd best) then kv else best) r
  end.

(** Modelled from the spec: the minimum of extremePrices with its time; an
    empty series is an error. *)
Definition lowest (series : dict datetime float) : result (datetime * float) :=
  match series with
  | [] => Raise (LibraryError "empty series")
  | kv :: r => Ok (extreme (fun a b => SFltb a b) kv r)
  end.

(** Modelled from the spec: the maximum of extremePrices with its time; an
    empty series is an error. *)
Definition highest (series : dict datetime float) : result (datetime * float) :=
  match series with
  | [] => Raise (LibraryError "empty series")
  | kv :: r => Ok (extreme (fun a b => SFltb b a) kv r)
  end.

(** [float(n)] *)
Definition of_int (n : Z) : float := binary_normalize 53 1024 n 0 false.

(** Modelled from the spec: averagePrice, the arithmetic mean of all prices
    of the series; an empty series is an error. *)
Definition average (series : dict datetime float) : result float :=
  match series with
  | [] => Raise (LibraryError "empty series")
  | _ =>
      Ok (SFdiv 53 1024
            (fold_left (SFadd 53 1024) (map snd series) (S754_zero false))
            (of_int (Z.of_nat (List.length series))))
  end.

(** Modelled from the spec: percentOfMax, 100 * priceAt(series, now) /
    max(series); an error when the price is unavailable or the maximum is
    zero. *)
Definition pct_of_max (series : dict datetime float) (now : datetime)
  : result float :=
  match price_at series now, highest series with
  | Some p, Ok (_, S754_zero _) => Raise (LibraryError "division by zero")
  | Some p, Ok (_, top) => Ok (SFmul 53 1024 (of_int 100) (SFdiv 53 1024 p top))
  | None, _ => Raise (LibraryError "no current price")
  | _, Raise e => Raise e
  end.

(** Modelled from the spec: countEqualOrCheaper, the number of hours priced
    at or below priceAt(series, now); 0 when that is unavailable. *)
Definition equal_or_lower (series : dict datetime float) (now : datetime) : Z :=
  match price_at series now with
  | Some p => Z.of_nat (List.length (filter (fun kv => SFleb (snd kv) p) series))
  | None => 0
  end.

(** Modelled from the spec: the members of [Electricity] and [Gas] over the
    operations above; each reads the series and leaves the object alone. *)
Definition models : Models := {|
  Electricity_current_price :=
    fun now e => (Ok (price_at (Electricity.prices e) now), e);
  Electricity_price_at_time :=
    fun t now e => (Ok (price_at (Electricity.prices e) t), e);
  Electricity_average_price :=
    fun now e => (average (Electricity.prices e), e);
  Electricity_extreme_prices :=
    fun now e =>
      (match lowest (Electricity.prices e), highest (Electricity.prices e) with
       | Ok lo, Ok hi => Ok (snd lo, snd hi)
       | Raise x, _ | _, Raise x => Raise x
       end, e);
  Electricity_highest_price_time :=
    fun now e => (result_map fst (highest (Electricity.prices e)), e);
  Electricity_lowest_price_time :=
    fun now e => (result_map fst (lowest (Electricity.prices e)), e);
  Electricity_pct_of_max_price :=
    fun now e => (pct_of_max (Electricity.prices e) now, e);
  Electricity_hours_priced_equal_or_lower :=
    fun now e => (Ok (equal_or_lower (Electricity.prices e) now), e);
  Gas_current_price :=
    fun now g => (Ok (price_at (Gas.prices g) now), g);
  Gas_price_at_time :=
    fun t now g => (Ok (price_at (Gas.prices g) t), g)
|}.

(** The binary64 values nearest to 0.20, 0.50 and 0.10. *)
Definition f020 : float := S754_finite false 7205759403792794 (-55).
Definition f050 : float := S754_finite false 4503599627370496 (-53).
Definition f010 : float := S754_finite false 7205759403792794 (-56).

(** The series 00:00 -> 0.20, 01:00 -> 0.50, 02:00 -> 0.10, with a gas
    series of one price from 00:00 to 03:00. *)
Definition three_hours : dict datetime float :=
  [(mk_datetime 0 (Some UTC), f020);
   (mk_datetime usec_per_hour (Some UTC), f050);
   (mk_datetime (2 * usec_per_hour) (Some UTC), f010)].

Definition gas : Gas.t := {| Gas.prices := hourly 0 3 f050 |}.

(** The clock reads 01:00. *)
Definition env : Env :=
  {| clock := mk_datetime usec_per_hour (Some UTC);
     get_time_zone := sample_zones;
     DEFAULT_TIME_ZONE := UTC |}.

End Sample.

(** ** The claims that fail, as the specification words them *)




(** ** The platform glue: descriptions, entities and set-up *)

(** [d[k]] on a [dict] with string keys; [None] stands for [KeyError]. *)
Definition getitem {V : Type} (d : dict string V) (k : string) : option V :=
  match find (fun kv => String.eqb (fst kv) k) d with
  | Some kv => Some (snd kv)
  | None => None
  end.

(** The constants [sensor.py] imports: [DOMAIN] and
    [SERVICE_TYPE_DEVICE_NAMES] of [const.py], which is not among the
    sources, and those of the platform. *)
Record Const : Type := {
  DOMAIN : string;
  SERVICE_TYPE_DEVICE_NAMES : dict string string;
  SENSOR_DOMAIN : string;
  CURRENCY_EURO : string;
  PERCENTAGE : string;
  CUBIC_METERS : string;       (* UnitOfVolume.CUBIC_METERS *)
  KILO_WATT_HOUR : string;     (* UnitOfEnergy.KILO_WATT_HOUR *)
  HOURS : string               (* UnitOfTime.HOURS *)
}.

Inductive SensorStateClass : Type := MEASUREMENT.
Inductive SensorDeviceClass : Type := TIMESTAMP.
Inductive DeviceEntryType : Type := SERVICE.

(** A [value_fn]: a lambda of one parameter, [data], or of two, [hass] and
    [data].  The snapshot is the state its body runs on. *)
Inductive callable : Type :=
| Lambda1 (body : View value)
| Lambda2 (body : HomeAssistant -> View value).

Module Description.
(** [EnergyZeroSensorEntityDescription], with the fields of
    [SensorEntityDescription] that [SENSORS] sets. *)
Record t : Type := {
  key : string;
  translation_key : string;
  name : string;
  service_type : string;
  state_class : option SensorStateClass;
  device_class : option SensorDeviceClass;
  native_unit_of_measurement : option string;
  value_fn : callable
}.
End Description.

Record ConfigEntry : Type := { entry_id : string }.

(** [EnergyZeroDataUpdateCoordinator], as far as the entity reads it. *)
Record Coordinator : Type := {
  config_entry : ConfigEntry;
  coordinator_data : EnergyZeroData
}.

Record DeviceInfo : Type := {
  entry_type : DeviceEntryType;
  identifiers : list (string * string);
  manufacturer : string;
  device_name : string
}.

(** [EnergyZeroSensorEntity], with what [__init__] sets. *)
Record Entity : Type := {
  coordinator : Coordinator;
  entity_description : Description.t;
  attr_name : string;
  entity_id : string;
  attr_unique_id : string;
  attr_device_info : DeviceInfo
}.

(** What set-up returns: a value, or the [KeyError] of a failed look-up. *)
Inductive setup (A : Type) : Type :=
| Built (a : A)
| KeyError (k : string).
Arguments Built {A} a.
Arguments KeyError {A} k.

(** The entities of a generator, built one after the other until one
    fails. *)
Fixpoint build_all {A B : Type} (f : A -> setup B) (l : list A) : setup (list B) :=
  match l with
  | [] => Built []
  | x :: r =>
      match f x with
      | KeyError k => KeyError k
      | Built y =>
          match build_all f r with
          | KeyError k => KeyError k
          | Built ys => Built (y :: ys)
          end
      end
  end.

Section Platform.

Variable env : Env.
Variable lib : Models.
Variable c : Const.

Definition SENSORS : list Description.t := [
  {| Description.key := "current_hour_price";
     Description.translation_key := "current_hour_price";
     Description.name := "Current Hour Price";
     Description.service_type := "today_gas";
     Description.state_class := Some MEASUREMENT;
     Description.device_class := None;
     Description.native_unit_of_measurement :=
       Some (CURRENCY_EURO c ++ "/" ++ CUBIC_METERS c);
     Description.value_fn :=
       Lambda1 (gas <- attr gas_today ;;
                match gas with
                | Some _ => p <- on_gas env (Gas_current_price lib) ;; ret (of_price p)
                | None => ret VNone
                end) |};
  {| Description.key := "next_hour_price";
     Description.translation_key := "next_hour_price";
     Description.name := "Next Hour Price";
     Description.service_type := "today_gas";
     Description.state_class := None;
     Description.device_class := None;
     Description.native_unit_of_measurement :=
       Some (CURRENCY_EURO c ++ "/" ++ CUBIC_METERS c);
     Description.value_fn :=
       Lambda1 (p <- get_gas_price env lib 1 ;; ret (of_price p)) |};
  {| Description.key := "current_hour_price";
     Description.translation_key := "current_hour_price";
     Description.name := "Current Hour Price";
     Description.service_type := "today_energy";
     Description.state_class := Some MEASUREMENT;
     Description.device_class := None;
     Description.native_unit_of_measurement :=
       Some (CURRENCY_EURO c ++ "/" ++ KILO_WATT_HOUR c);
     Description.value_fn :=
       Lambda1 (p <- on_energy env (Electricity_current_price lib) ;;
                ret (of_price p)) |};
  {| Description.key := "next_hour_price";
     Description.translation_key := "next_hour_price";
     Description.name := "Next Hour Price";
     Description.service_type := "today_energy";
     Description.state_class := None;
     Description.device_class := None;
     Description.native_unit_of_measurement :=
       Some (CURRENCY_EURO c ++ "/" ++ KILO_WATT_HOUR c);
     Description.value_fn :=
       Lambda1 (now <- energy_utcnow env ;;
                p <- on_energy env
                       (Electricity_price_at_time lib
                          (datetime_add now (timedelta_hours 1))) ;;
                ret (of_price p)) |};
  {| Description.key := "average_price";
     Description.translation_key := "average_price";
     Description.name := "Average Price Today";
     Description.service_type := "today_energy";
     Description.state_class := None;
     Description.device_class := None;
     Description.native_unit_of_measurement :=
       Some (CURRENCY_EURO c ++ "/" ++ KILO_WATT_HOUR c);
     Description.value_fn :=
       Lambda1 (x <- on_energy env (Electricity_average_price lib) ;;
                ret (VFloat x)) |};
  {| Description.key := "max_price";
     Description.translation_key := "max_price";
     Description.name := "Highest Price Today";
     Description.service_type := "today_energy";
     Description.state_class := None;
     Description.device_class := None;
     Description.native_unit_of_measurement :=
       Some (CURRENCY_EURO c ++ "/" ++ KILO_WATT_HOUR c);
     Description.value_fn :=
       Lambda1 (x <- on_energy env (Electricity_extreme_prices lib) ;;
                ret (VFloat (snd x))) |};
  {| Description.key := "min_price";
     Description.translation_key := "min_price";
     Description.name := "Lowest Price Today";
     Description.service_type := "today_energy";
     Description.state_class := None;
     Description.device_class := None;
     Description.native_unit_of_measurement :=
       Some (CURRENCY_EURO c ++ "/" ++ KILO_WATT_HOUR c);
     Description.value_fn :=
       Lambda1 (x <- on_energy env (Electricity_extreme_prices lib) ;;
                ret (VFloat (fst x))) |};
  {| Description.key := "highest_price_time";
     Description.translation_key := "highest_price_time";
     Description.name := "Time of Highest Price Today";
     Description.service_type := "today_energy";
     Description.state_class := None;
     Description.device_class := Some TIMESTAMP;
     Description.native_unit_of_measurement := None;
     Description.value_fn :=
       Lambda1 (d <- on_energy env (Electricity_highest_price_time lib) ;;
                ret (VDatetime d)) |};
  {| Description.key := "lowest_price_time";
     Description.translation_key := "lowest_price_time";
     Description.name := "Time of Lowest Price Today";
     Description.service_type := "today_energy";
     Description.state_class := None;
     Description.device_class := Some TIMESTAMP;
     Description.native_unit_of_measurement := None;
     Description.value_fn :=
       Lambda1 (d <- on_energy env (Electricity_lowest_price_time lib) ;;
                ret (VDatetime d)) |};
  {| Description.key := "percentage_of_max";
     Description.translation_key := "percentage_of_max";
     Description.name := "Current Percentage of Highest Price";
     Description.service_type := "today_energy";
     Description.state_class := None;
     Description.device_class := None;
     Description.native_unit_of_measurement := Some (PERCENTAGE c);
     Description.value_fn :=
       Lambda1 (x <- on_energy env (Electricity_pct_of_max_price lib) ;;
                ret (VFloat x)) |};
  {| Description.key := "hours_priced_equal_or_lower";
     Description.translation_key := "hours_priced_equal_or_lower";
     Description.name := "Hours Priced Equal or Lower";
     Description.service_type := "today_energy";
     Description.state_class := None;
     Description.device_class := None;
     Description.native_unit_of_measurement := Some (HOURS c);
     Description.value_fn :=
       Lambda1 (n <- on_energy env (Electricity_hours_priced_equal_or_lower lib) ;;
                ret (VInt n)) |};
  {| Description.key := "timestamp_prices";
     Description.translation_key := "timestamp_prices";
     Description.name := "Hourly Prices Today";
     Description.service_type := "today_energy";
     Description.state_class := None;
     Description.device_class := None;
     Description.native_unit_of_measurement := None;
     Description.value_fn :=
       Lambda2 (fun hass => s <- process_timestamp_prices env hass ;; ret (VStr s)) |}
].

(** [EnergyZeroSensorEntity.__init__] *)
Definition init (coordinator : Coordinator) (description : Description.t)
  : setup Entity :=
  match getitem (SERVICE_TYPE_DEVICE_NAMES c) (Description.service_type description) with
  | None => KeyError (Description.service_type description)
  | Some device =>
      Built
        {| coordinator := coordinator;
           entity_description := description;
           attr_name := Description.name description;
           entity_id :=
             SENSOR_DOMAIN c ++ "." ++ DOMAIN c ++ "_"
             ++ Description.service_type description ++ "_"
             ++ Description.key description;
           attr_unique_id :=
             entry_id (config_entry coordinator) ++ "_"
             ++ Description.service_type description ++ "_"
             ++ Description.key description;
           attr_device_info :=
             {| entry_type := SERVICE;
                identifiers :=
                  [(DOMAIN c,
                    entry_id (config_entry coordinator) ++ "_"
                    ++ Description.service_type description)];
                manufacturer := "EnergyZero";
                device_name := device |} |}
  end.

(** [async_setup_entry]: the entities handed to [async_add_entities], one
    per description of [SENSORS], for the coordinator found in
    [hass.data[DOMAIN][entry.entry_id]]. *)
Definition async_setup_entry
  (hass_data : dict string (dict string Coordinator)) (entry : ConfigEntry)
  : setup (list Entity) :=
  match getitem hass_data (DOMAIN c) with
  | None => KeyError (DOMAIN c)
  | Some entries =>
      match getitem entries (entry_id entry) with
      | None => KeyError (entry_id entry)
      | Some coordinator => build_all (init coordinator) SENSORS
      end
  end.

End Platform.

(** The entries of [SENSORS] in the order of the table. *)
Definition all_sensors : list sensor :=
  [today_gas_current_hour_price; today_gas_next_hour_price;
   today_energy_current_hour_price; today_energy_next_hour_price;
   today_energy_average_price; today_energy_max_price; today_energy_min_price;
   today_energy_highest_price_time; today_energy_lowest_price_time;
   today_energy_percentage_of_max; today_energy_hours_priced_equal_or_lower;
   today_energy_timestamp_prices].

(** Constants for the samples: the domain and the device names of the
    integration, and the platform's units. *)
Definition sample_const : Const :=
  {| DOMAIN := "energyzero";
     SERVICE_TYPE_DEVICE_NAMES :=
       [("today_energy", "Energy market price");
        ("today_gas", "Gas market price")];
     SENSOR_DOMAIN := "sensor";
     CURRENCY_EURO := "€";
     PERCENTAGE := "%";
     CUBIC_METERS := "m³";
     KILO_WATT_HOUR := "kWh";
     HOURS := "h" |}.

Definition sample_coordinator : Coordinator :=
  {| config_entry := {| entry_id := "0123abcd" |};
     coordinator_data := snapshot Sample.three_hours (Some Sample.gas) |}.

Definition sample_hass_data : dict string (dict string Coordinator) :=
  [("energyzero", [("0123abcd", sample_coordinator)])].

(** ** Reading the glue and the rendering *)

(** The strings of a list are pairwise distinct. *)
Fixpoint distinct_strings (l : list string) : bool :=
  match l with
  | [] => true
  | x :: r => negb (existsb (String.eqb x) r) && distinct_strings r
  end.


Definition wall_lt (x y : datetime * float) : Prop := wall (fst x) < wall (fst y).

(** The local wall clocks of the entries of a series. *)
Definition local_walls (env : Env) (prices : dict datetime float) : list Z :=
  map (fun kv => wall (fst (localize env kv))) prices.




(** ** The steps that can raise *)

(** [process_timestamp_prices] above is the path on which every step
    returns.  Two steps it takes from the platform can raise instead: the
    look-up of a time zone by a name that is not well formed ([ValueError]
    out of [dt_util.get_time_zone]), and a conversion that leaves the range
    of [datetime] ([OverflowError] out of [astimezone]).  This module puts
    them back. *)
Module Strict.

(** The platform with what decides the two exceptions: the names that are
    well-formed keys of the time zone data base, and the wall clocks of
    [datetime.min] and [datetime.max]. *)
Record Platform : Type := {
  env : Env;
  well_formed : string -> bool;
  datetime_min : Z;
  datetime_max : Z
}.

Definition in_datetime_range (p : Platform) (w : Z) : bool :=
  (datetime_min p <=? w) && (w <=? datetime_max p).

(** [dt_util.get_time_zone]: the zone of the data base, [None] for a name
    it does not know, [ValueError] for a name that is not well formed. *)
Definition get_time_zone (p : Platform) (name : string) : result (option tzinfo) :=
  if well_formed p name then Ok (get_time_zone (env p) name)
  else Raise ValueError.

(** [dt_util.as_local], with the range of [datetime]: the UTC instant of an
    aware argument and the local wall clock must both lie in it. *)
Definition as_local (p : Platform) (dattim : datetime) : result datetime :=
  match dt_tzinfo dattim with
  | None => Ok (as_local (env p) dattim)
  | Some zone =>
      if in_datetime_range p (wall dattim - utcoffset zone (wall dattim))
         && in_datetime_range p (wall (as_local (env p) dattim))
      then Ok (as_local (env p) dattim)
      else Raise OverflowError
  end.

(** A result as a view that leaves the snapshot alone. *)
Definition lift {A : Type} (r : result A) : View A := fun data => (r, data).

(** The generator of line 151, drawn to its end by [sorted]: the first
    conversion that raises ends it. *)
Fixpoint convert_all (p : Platform) (l : list (datetime * float))
  : result (list (datetime * float)) :=
  match l with
  | [] => Ok []
  | (k, v) :: r =>
      match as_local p (replace_tzinfo k (Some UTC)) with
      | Raise e => Raise e
      | Ok d =>
          match convert_all p r with
          | Raise e => Raise e
          | Ok ds => Ok ((replace_tzinfo d None, v) :: ds)
          end
      end
  end.

Definition process_timestamp_prices (p : Platform) (hass : HomeAssistant)
  : View string :=
  prices <- attr (fun data => Electricity.prices (energy_today data)) ;;
  local_tz <- lift (get_time_zone p (time_zone (config hass))) ;;
  (* Convert UTC times to local timezone and sort *)
  converted <- lift (convert_all p (items prices)) ;;
  let local_prices := sorted tuple_lt converted in
  (* Create the string with sorted, timezone-adjusted prices *)
  ret (join ","
         (map (fun '(k, v) => format_02d (hour k) ++ ":" ++ format_2f v)
              local_prices)).

(** The value functions of [SENSORS]: the one of [timestamp_prices] goes
    through the steps that can raise, the others are as above. *)
Definition value_fn (p : Platform) (lib : Models) (hass : HomeAssistant)
  (s : sensor) : View value :=
  match s with
  | today_energy_timestamp_prices =>
      s <- process_timestamp_prices p hass ;; ret (VStr s)
  | _ => value_fn (env p) lib hass s
  end.

Definition rendered (p : Platform) (hass : HomeAssistant) (data : EnergyZeroData)
  : result string :=
  fst (process_timestamp_prices p hass data).

(** The key of an entry, as a UTC instant, and its local wall clock are
    both in the range of [datetime]. *)
Definition in_range (p : Platform) (kv : datetime * float) : bool :=
  in_datetime_range p (wall (fst kv))
  && in_datetime_range p (wall (fst (localize (env p) kv))).


End Strict.

(** ** Sample platforms and zones *)

(** A key of the time zone data base is a relative path: a name that starts
    with a slash is not well formed. *)
Definition relative_name (name : string) : bool := negb (String.prefix "/" name).

(** The days of the years 1 to 9999, and the last microsecond of the last
    of them, counted from midnight of the first. *)
Definition days_of_datetime : Z := 3652059.
Definition last_microsecond : Z := days_of_datetime * usec_per_day - 1.

(** The platform in UTC with the sample data base, counting from
    [datetime.min]. *)
Definition platform_utc : Strict.Platform :=
  {| Strict.env := env_utc;
     Strict.well_formed := relative_name;
     Strict.datetime_min := 0;
     Strict.datetime_max := last_microsecond |}.

Definition platform_plus1 : Strict.Platform :=
  {| Strict.env := env_plus1;
     Strict.well_formed := relative_name;
     Strict.datetime_min := 0;
     Strict.datetime_max := last_microsecond |}.

(** A platform object configured with a name that is no key. *)
Definition hass_malformed : HomeAssistant :=
  {| config := {| time_zone := "/etc/localtime" |} |}.



(** ** The claims that are corrected below, as the specification words them *)


(** "For every series it returns a single string value." *)
Definition always_returns_string (p : Strict.Platform) (hass : HomeAssistant)
  (data : EnergyZeroData) : Prop :=
  exists s : string, Strict.rendered p hass data = Ok s.


(** * Properties *)

(** ** The conversion of a key *)

(** A key is tagged UTC whatever zone it came with, so its wall clock is
    the UTC instant; the default time zone adds its offset at that instant,
    and the zone is dropped. *)
Lemma localize_wall (env : Env) (kv : datetime * float) :
  localize env kv
  = (mk_datetime
       (wall (fst kv) + utcoffset_at (DEFAULT_TIME_ZONE env) (wall (fst kv)))
       None,
     snd kv).
Proof.
  unfold localize, as_local, replace_tzinfo. cbn.
  now rewrite Z.sub_0_r.
Qed.

(** ** Strings *)





















(** ** Splitting what was joined *)

Lemma split_nonnil (sep : ascii) (s : string) : split sep s <> [].
Proof.
  destruct s as [|c r]; simpl; [discriminate|].
  destruct (Ascii.eqb c sep); [discriminate|].
  destruct (split sep r); discriminate.
Qed.





(** ** Sorting *)

Section Sorting.

Context {A : Type} (lt : A -> A -> bool).

Lemma insort_perm (x : A) (l : list A) : Permutation (insort lt x l) (x :: l).
Proof.
  induction l as [|y l IH]; simpl; [reflexivity|].
  destruct (lt x y); [reflexivity|].
  rewrite IH. apply perm_swap.
Qed.

Lemma fold_insort_perm (l acc : list A) :
  Permutation (fold_left (fun acc x => insort lt x acc) l acc) (acc ++ l).
Proof.
  revert acc. induction l as [|x l IH]; intros acc; simpl.
  - now rewrite app_nil_r.
  - rewrite IH, insort_perm. apply Permutation_middle.
Qed.

Lemma sorted_perm (l : list A) : Permutation (sorted lt l) l.
Proof. unfold sorted. apply (fold_insort_perm l []). Qed.


(** Insertion keeps a list ordered by any transitive relation that agrees
    with the comparison both ways. *)
Variable le : A -> A -> Prop.
Hypothesis le_trans : forall x y z, le x y -> le y z -> le x z.
Hypothesis lt_le : forall x y, lt x y = true -> le x y.
Hypothesis nlt_le : forall x y, lt x y = false -> le y x.

Lemma insort_sorted (x : A) (l : list A) :
  StronglySorted le l -> StronglySorted le (insort lt x l).
Proof.
  induction 1 as [|y l Hs IH Hy]; simpl.
  - constructor; constructor.
  - destruct (lt x y) eqn:E.
    + constructor; [constructor; assumption|].
      constructor; [now apply lt_le|].
      eapply Forall_impl; [|exact Hy].
      intros z Hz. eapply le_trans; [apply lt_le; exact E | exact Hz].
    + constructor; [exact IH|].
      eapply Permutation_Forall; [symmetry; apply insort_perm|].
      constructor; [now apply nlt_le | exact Hy].
Qed.

Lemma fold_insort_sorted (l acc : list A) :
  StronglySorted le acc ->
  StronglySorted le (fold_left (fun acc x => insort lt x acc) l acc).
Proof.
  revert acc. induction l as [|x l IH]; intros acc H; simpl; [exact H|].
  apply IH, insort_sorted, H.
Qed.

Lemma sorted_sorted (l : list A) : StronglySorted le (sorted lt l).
Proof. apply fold_insort_sorted. constructor. Qed.

End Sorting.

(** The tuple comparison and the order of the wall clocks. *)
Lemma tuple_lt_wall_le (x y : datetime * float) :
  tuple_lt x y = true -> wall_le x y.
Proof.
  unfold tuple_lt, wall_le, datetime_eqb, datetime_ltb.
  destruct (Z.eqb_spec (wall (fst x)) (wall (fst y))) as [E|E]; simpl.
  - lia.
  - intros H. apply Z.ltb_lt in H. lia.
Qed.

Lemma tuple_nlt_wall_le (x y : datetime * float) :
  tuple_lt x y = false -> wall_le y x.
Proof.
  unfold tuple_lt, wall_le, datetime_eqb, datetime_ltb.
  destruct (Z.eqb_spec (wall (fst x)) (wall (fst y))) as [E|E]; simpl.
  - lia.
  - intros H. apply Z.ltb_ge in H. lia.
Qed.

Lemma wall_le_trans (x y z : datetime * float) :
  wall_le x y -> wall_le y z -> wall_le x z.
Proof. unfold wall_le. lia. Qed.

Lemma sorted_by_wall (l : list (datetime * float)) :
  StronglySorted wall_le (sorted tuple_lt l).
Proof.
  apply sorted_sorted.
  - exact wall_le_trans.
  - exact tuple_lt_wall_le.
  - exact tuple_nlt_wall_le.
Qed.

(** ** [process_timestamp_prices] *)

Lemma process_timestamp_prices_run (env : Env) (hass : HomeAssistant)
  (data : EnergyZeroData) :
  process_timestamp_prices env hass data =
  (Ok (join ","
         (map token
              (sorted tuple_lt
                 (map (localize env) (Electricity.prices (energy_today data)))))),
   data).
Proof.
  assert (E1 : forall l : list (datetime * float),
             map (fun '(k, v) =>
                    (replace_tzinfo (as_local env (replace_tzinfo k (Some UTC))) None, v)) l
             = map (localize env) l)
    by (intros l; apply map_ext; now intros [k v]).
  assert (E2 : forall l : list (datetime * float),
             map (fun '(k, v) => format_02d (hour k) ++ ":" ++ format_2f v) l
             = map token l)
    by (intros l; apply map_ext; now intros [k v]).
  unfold process_timestamp_prices, bind, attr, ret, items.
  now rewrite E1, E2.
Qed.



(** ** Ascending sequences *)












(** ** The hourly rendering *)




(** The literal [0.24]: [f024] is within half a unit in the last place of
    24/100. *)
Lemma f024_nearest :
  match f024 with
  | S754_finite false m e =>
      e = -55 /\ Z.abs (100 * Z.pos m - 24 * 2 ^ 55) <= 50
      /\ valid_binary 53 1024 f024 = true
  | _ => False
  end.
Proof. vm_compute. repeat split; congruence. Qed.








(** ** The views and the snapshot *)

Lemma sample_read_only : read_only Sample.models.
Proof. constructor; intros; intros now s; reflexivity. Qed.

Section Views.

Variable lib : Models.

(** Running a member on the electricity object, and on the gas object. *)
Lemma on_energy_run {A : Type} (env : Env) (m : Method Electricity.t A)
  (e : Electricity.t) (g : option Gas.t) :
  on_energy env m {| energy_today := e; gas_today := g |}
  = (fst (m (clock env) e),
     {| energy_today := snd (m (clock env) e); gas_today := g |}).
Proof. unfold on_energy. simpl. now destruct (m (clock env) e). Qed.

Lemma on_gas_run {A : Type} (env : Env) (m : Method Gas.t A)
  (e : Electricity.t) (g : Gas.t) :
  on_gas env m {| energy_today := e; gas_today := Some g |}
  = (fst (m (clock env) g),
     {| energy_today := e; gas_today := Some (snd (m (clock env) g)) |}).
Proof. unfold on_gas. simpl. now destruct (m (clock env) g). Qed.

Lemma on_energy_frame {A : Type} (env : Env) (m : Method Electricity.t A)
  (data : EnergyZeroData) :
  unchanged m -> snd (on_energy env m data) = data.
Proof.
  intros U. destruct data as [e g]. rewrite on_energy_run. simpl.
  now rewrite U.
Qed.

Lemma on_gas_frame {A : Type} (env : Env) (m : Method Gas.t A)
  (data : EnergyZeroData) :
  unchanged m -> snd (on_gas env m data) = data.
Proof.
  intros U. destruct data as [e [g|]]; [|reflexivity].
  rewrite on_gas_run. simpl. now rewrite U.
Qed.

(** A continuation that only returns keeps what its view leaves behind,
    and maps its result. *)
Lemma bind_ret_frame {A B : Type} (m : View A) (f : A -> B)
  (data : EnergyZeroData) :
  snd ((x <- m ;; ret (f x)) data) = snd (m data).
Proof. unfold bind, ret. now destruct (m data) as [[a|e] d]. Qed.

Lemma bind_ret_result {A B : Type} (m : View A) (f : A -> B)
  (data : EnergyZeroData) :
  fst ((x <- m ;; ret (f x)) data) = result_map f (fst (m data)).
Proof. unfold bind, ret. now destruct (m data) as [[a|e] d]. Qed.

Lemma get_gas_price_none (env : Env) (hours : Z) (e : Electricity.t) :
  get_gas_price env lib hours {| energy_today := e; gas_today := None |}
  = (Ok None, {| energy_today := e; gas_today := None |}).
Proof. reflexivity. Qed.

Lemma get_gas_price_some (env : Env) (hours : Z) (e : Electricity.t) (g : Gas.t) :
  get_gas_price env lib hours {| energy_today := e; gas_today := Some g |}
  = on_gas env
      (Gas_price_at_time lib (datetime_add (clock env) (timedelta_hours hours)))
      {| energy_today := e; gas_today := Some g |}.
Proof. reflexivity. Qed.

Lemma get_gas_price_frame (env : Env) (hours : Z) (data : EnergyZeroData) :
  read_only lib -> snd (get_gas_price env lib hours data) = data.
Proof.
  intros R. destruct data as [e [g|]].
  - rewrite get_gas_price_some. apply on_gas_frame, R.
  - now rewrite get_gas_price_none.
Qed.

Lemma bind_frame {A B : Type} (m : View A) (k : A -> View B)
  (data : EnergyZeroData) :
  snd (m data) = data -> (forall a, snd (k a data) = data) ->
  snd ((x <- m ;; k x) data) = data.
Proof.
  unfold bind. destruct (m data) as [[a|e] d]; simpl; intros ->; auto.
Qed.

Lemma value_fn_frame (env : Env) (hass : HomeAssistant) (s : sensor)
  (data : EnergyZeroData) :
  read_only lib -> snd (value_fn env lib hass s data) = data.
Proof.
  intros R. destruct s; unfold value_fn;
    repeat (apply bind_frame; [|intros ?]);
    try reflexivity;
    try (apply on_energy_frame; solve [apply R | intros now e; reflexivity]).
  all: destruct a; [|reflexivity];
    repeat (apply bind_frame; [|intros ?]); try reflexivity;
    apply on_gas_frame; solve [apply R | intros now g; reflexivity].
Qed.




(** C5.  With no gas series the two gas views return [None] and do not
    raise, and leave the snapshot alone; every electricity view returns what
    it returns with a gas series present, and leaves the electricity series
    in the same state. *)
Theorem missing_gas (env : Env) (hass : HomeAssistant) (data : EnergyZeroData) :
  gas_today data = None ->
  value_fn env lib hass today_gas_current_hour_price data = (Ok VNone, data)
  /\ value_fn env lib hass today_gas_next_hour_price data = (Ok VNone, data)
  /\ get_gas_price env lib 1 data = (Ok None, data)
  /\ (forall s g,
        service_type s = "today_energy" ->
        let data' := {| energy_today := energy_today data; gas_today := Some g |} in
        fst (value_fn env lib hass s data) = fst (value_fn env lib hass s data')
        /\ energy_today (snd (value_fn env lib hass s data))
           = energy_today (snd (value_fn env lib hass s data'))).
Proof.
  destruct data as [e g0]. cbn [gas_today energy_today]. intros ->.
  split; [reflexivity|]. split; [reflexivity|]. split; [reflexivity|].
  intros s g Hs. cbv zeta.
  destruct s; try discriminate Hs; unfold value_fn, energy_utcnow, bind, ret;
    repeat (rewrite !on_energy_run; cbn [fst snd]);
    rewrite ?process_timestamp_prices_run;
    try match goal with
        | |- context [match fst ?r with _ => _ end] => destruct (fst r)
        end;
    split; reflexivity.
Qed.

(** C6.  The next-hour view of electricity is the price the electricity
    series gives at the clock plus one hour, and the next-hour view of gas
    is the price the gas series gives at the clock plus one hour when there
    is a gas series. *)
Theorem next_hour_price (env : Env) (hass : HomeAssistant) (data : EnergyZeroData) :
  fst (value_fn env lib hass today_energy_next_hour_price data)
  = result_map of_price
      (fst (Electricity_price_at_time lib
              (datetime_add (clock env) (timedelta_hours 1))
              (clock env) (energy_today data)))
  /\ (forall g,
        gas_today data = Some g ->
        fst (value_fn env lib hass today_gas_next_hour_price data)
        = result_map of_price
            (fst (Gas_price_at_time lib
                    (datetime_add (clock env) (timedelta_hours 1))
                    (clock env) g))
        /\ fst (get_gas_price env lib 1 data)
           = fst (Gas_price_at_time lib
                    (datetime_add (clock env) (timedelta_hours 1))
                    (clock env) g))
  /\ wall (datetime_add (clock env) (timedelta_hours 1))
     = wall (clock env) + usec_per_hour.
Proof.
  destruct data as [e g0]. cbn [energy_today gas_today].
  split; [|split].
  - unfold value_fn, energy_utcnow, bind, ret.
    repeat (rewrite !on_energy_run; cbn [fst snd]).
    now destruct (fst (Electricity_price_at_time lib _ _ e)).
  - intros g ->. unfold value_fn. rewrite bind_ret_result.
    rewrite get_gas_price_some, on_gas_run. split; reflexivity.
  - unfold datetime_add, timedelta_hours. cbn [wall]. ring.
Qed.

(** C7.  No view changes the snapshot.  [process_timestamp_prices] only
    reads it; [get_gas_price] and the other value functions touch it through
    the members of the models alone, and leave it as it was when those only
    read. *)
Theorem views_leave_snapshot (env : Env) (hass : HomeAssistant)
  (data : EnergyZeroData) :
  snd (process_timestamp_prices env hass data) = data
  /\ snd (value_fn env lib hass today_energy_timestamp_prices data) = data
  /\ (read_only lib ->
      (forall hours, snd (get_gas_price env lib hours data) = data)
      /\ (forall s, snd (value_fn env lib hass s data) = data)).
Proof.
  split; [|split].
  - now rewrite process_timestamp_prices_run.
  - unfold value_fn. rewrite bind_ret_frame.
    now rewrite process_timestamp_prices_run.
  - intros R. split.
    + intros hours. now apply get_gas_price_frame.
    + intros s. now apply value_fn_frame.
Qed.


End Views.

(** The sample series at 01:00 without gas: the gas views are unavailable
    and the current electricity price is 0.50 with or without gas. *)
Lemma missing_gas_witness :
  gas_today (snapshot Sample.three_hours None) = None
  /\ service_type today_energy_current_hour_price = "today_energy"
  /\ fst (value_fn Sample.env Sample.models hass_utc today_gas_next_hour_price
            (snapshot Sample.three_hours None)) = Ok VNone
  /\ fst (value_fn Sample.env Sample.models hass_utc today_energy_current_hour_price
            (snapshot Sample.three_hours None))
     = fst (value_fn Sample.env Sample.models hass_utc today_energy_current_hour_price
              (snapshot Sample.three_hours (Some Sample.gas))).
Proof.
  split; [reflexivity|]. split; [reflexivity|].
  destruct (missing_gas Sample.models Sample.env hass_utc
              (snapshot Sample.three_hours None) eq_refl)
    as (_ & G & _ & E).
  split.
  - exact (f_equal fst G).
  - exact (proj1 (E today_energy_current_hour_price Sample.gas eq_refl)).
Defined.

(** The sample series at 01:00: the next-hour views are the prices of
    02:00. *)
Lemma next_hour_price_witness :
  gas_today (snapshot Sample.three_hours (Some Sample.gas)) = Some Sample.gas
  /\ fst (value_fn Sample.env Sample.models hass_utc today_energy_next_hour_price
            (snapshot Sample.three_hours (Some Sample.gas)))
     = Ok (VFloat Sample.f010)
  /\ fst (value_fn Sample.env Sample.models hass_utc today_gas_next_hour_price
            (snapshot Sample.three_hours (Some Sample.gas)))
     = result_map of_price
         (fst (Gas_price_at_time Sample.models
                 (datetime_add (clock Sample.env) (timedelta_hours 1))
                 (clock Sample.env) Sample.gas)).
Proof.
  split; [reflexivity|]. split; [reflexivity|].
  exact (proj1 (proj1 (proj2 (next_hour_price Sample.models Sample.env hass_utc
                         (snapshot Sample.three_hours (Some Sample.gas))))
                  Sample.gas eq_refl)).
Defined.

(** The sample members only read, and every view of the sample series
    leaves the snapshot as it was. *)
Lemma views_leave_snapshot_witness :
  read_only Sample.models
  /\ forall s,
       snd (value_fn Sample.env Sample.models hass_utc s
              (snapshot Sample.three_hours (Some Sample.gas)))
       = snapshot Sample.three_hours (Some Sample.gas).
Proof.
  split; [exact sample_read_only|].
  exact (proj2 (proj2 (proj2 (views_leave_snapshot Sample.models Sample.env
                                hass_utc
                                (snapshot Sample.three_hours (Some Sample.gas))))
                  sample_read_only)).
Defined.


(** ** Entities and set-up *)

Lemma append_inv_head (p a b : string) : p ++ a = p ++ b -> a = b.
Proof.
  induction p as [|ch p IH]; simpl; [auto|].
  intros H. injection H as H. auto.
Qed.

Lemma distinct_strings_NoDup (l : list string) :
  distinct_strings l = true -> NoDup l.
Proof.
  induction l as [|x r IH]; simpl; [constructor|].
  rewrite andb_true_iff, negb_true_iff. intros [Hx Hr].
  constructor; [|auto].
  intros Hin. apply not_true_iff_false in Hx. apply Hx.
  apply existsb_exists. exists x. split; [exact Hin | apply String.eqb_refl].
Qed.

Lemma NoDup_map_prefix (pre : string -> string) (l : list string) :
  (forall a b, pre a = pre b -> a = b) ->
  distinct_strings l = true -> NoDup (map pre l).
Proof.
  intros Hinj Hl. apply distinct_strings_NoDup in Hl.
  induction Hl as [|x r Hx Hr IH]; simpl; constructor; [|exact IH].
  intros Hin. apply in_map_iff in Hin as (y & E & Hy).
  apply Hinj in E. now subst y.
Qed.

Section Glue.

Variable env : Env.
Variable lib : Models.
Variable c : Const.

(** What [__init__] builds when the device name is found. *)
Lemma init_built (coord : Coordinator) (d : Description.t) (e : Entity) :
  init c coord d = Built e ->
  coordinator e = coord
  /\ entity_description e = d
  /\ entity_id e
     = SENSOR_DOMAIN c ++ "." ++ DOMAIN c ++ "_"
       ++ Description.service_type d ++ "_" ++ Description.key d
  /\ attr_unique_id e
     = entry_id (config_entry coord) ++ "_"
       ++ Description.service_type d ++ "_" ++ Description.key d
  /\ identifiers (attr_device_info e)
     = [(DOMAIN c, entry_id (config_entry coord) ++ "_" ++ Description.service_type d)]
  /\ getitem (SERVICE_TYPE_DEVICE_NAMES c) (Description.service_type d)
     = Some (device_name (attr_device_info e)).
Proof.
  unfold init.
  destruct (getitem (SERVICE_TYPE_DEVICE_NAMES c) (Description.service_type d));
    [|discriminate].
  intros [= <-]. repeat split.
Qed.

(** The entities of [SENSORS] once both device names are known. *)
Lemma build_sensors (coord : Coordinator) (ng ne : string) :
  getitem (SERVICE_TYPE_DEVICE_NAMES c) "today_gas" = Some ng ->
  getitem (SERVICE_TYPE_DEVICE_NAMES c) "today_energy" = Some ne ->
  exists ents,
    build_all (init c coord) (SENSORS env lib c) = Built ents
    /\ map entity_description ents = SENSORS env lib c
    /\ Forall (fun e => coordinator e = coord) ents
    /\ map entity_id ents
       = map (fun suffix => SENSOR_DOMAIN c ++ String "." (DOMAIN c ++ suffix))
             ["_today_gas_current_hour_price"; "_today_gas_next_hour_price";
              "_today_energy_current_hour_price"; "_today_energy_next_hour_price";
              "_today_energy_average_price"; "_today_energy_max_price";
              "_today_energy_min_price"; "_today_energy_highest_price_time";
              "_today_energy_lowest_price_time"; "_today_energy_percentage_of_max";
              "_today_energy_hours_priced_equal_or_lower";
              "_today_energy_timestamp_prices"]
    /\ map attr_unique_id ents
       = map (fun suffix => entry_id (config_entry coord) ++ suffix)
             ["_today_gas_current_hour_price"; "_today_gas_next_hour_price";
              "_today_energy_current_hour_price"; "_today_energy_next_hour_price";
              "_today_energy_average_price"; "_today_energy_max_price";
              "_today_energy_min_price"; "_today_energy_highest_price_time";
              "_today_energy_lowest_price_time"; "_today_energy_percentage_of_max";
              "_today_energy_hours_priced_equal_or_lower";
              "_today_energy_timestamp_prices"].
Proof.
  intros Hg He. unfold SENSORS, init.
  cbn [build_all Description.service_type].
  rewrite Hg, He. eexists. split; [reflexivity|].
  split; [reflexivity|]. split; [repeat constructor|].
  split; reflexivity.
Qed.

(** X1.  When the coordinator and both device names are found, set-up hands
    over one entity per description of [SENSORS], in the order of the table
    and all on the coordinator found; their entity ids are pairwise distinct
    and so are their unique ids. *)
Theorem setup_builds_distinct_entities
  (hass_data : dict string (dict string Coordinator)) (entry : ConfigEntry)
  (entries : dict string Coordinator) (coord : Coordinator) (ng ne : string) :
  getitem hass_data (DOMAIN c) = Some entries ->
  getitem entries (entry_id entry) = Some coord ->
  getitem (SERVICE_TYPE_DEVICE_NAMES c) "today_gas" = Some ng ->
  getitem (SERVICE_TYPE_DEVICE_NAMES c) "today_energy" = Some ne ->
  exists ents,
    async_setup_entry env lib c hass_data entry = Built ents
    /\ List.length ents = 12%nat
    /\ map entity_description ents = SENSORS env lib c
    /\ Forall (fun e => coordinator e = coord) ents
    /\ NoDup (map entity_id ents)
    /\ NoDup (map attr_unique_id ents).
Proof.
  intros Hd Hc Hg He.
  destruct (build_sensors coord ng ne Hg He) as (ents & B & D & C & I & U).
  exists ents. unfold async_setup_entry. rewrite Hd, Hc.
  split; [exact B|].
  split; [rewrite <- (length_map entity_description), D; reflexivity|].
  split; [exact D|]. split; [exact C|]. split.
  - rewrite I. apply NoDup_map_prefix; [|reflexivity].
    intros a b H. apply append_inv_head in H. injection H as H.
    now apply append_inv_head in H.
  - rewrite U. apply NoDup_map_prefix; [|reflexivity].
    intros a b H. now apply append_inv_head in H.
Qed.

(** X2.  Set-up fails only on a key that is missing, and with that key: the
    domain in [hass.data], the entry id under the domain, or one of the two
    service types in the table of device names. *)
Theorem setup_fails_on_missing_key
  (hass_data : dict string (dict string Coordinator)) (entry : ConfigEntry)
  (k : string) :
  async_setup_entry env lib c hass_data entry = KeyError k ->
  (getitem hass_data (DOMAIN c) = None /\ k = DOMAIN c)
  \/ (exists entries,
        getitem hass_data (DOMAIN c) = Some entries
        /\ getitem entries (entry_id entry) = None /\ k = entry_id entry)
  \/ (getitem (SERVICE_TYPE_DEVICE_NAMES c) k = None
      /\ (k = "today_gas" \/ k = "today_energy")).
Proof.
  unfold async_setup_entry.
  destruct (getitem hass_data (DOMAIN c)) as [entries|] eqn:Hd;
    [|intros [= <-]; now left].
  destruct (getitem entries (entry_id entry)) as [coord|] eqn:Hc;
    [|intros [= <-]; right; left; eauto].
  intros H. right. right.
  destruct (getitem (SERVICE_TYPE_DEVICE_NAMES c) "today_gas") as [ng|] eqn:Hg.
  - destruct (getitem (SERVICE_TYPE_DEVICE_NAMES c) "today_energy") as [ne|] eqn:He.
    + destruct (build_sensors coord ng ne Hg He) as (ents & B & _).
      rewrite B in H. discriminate.
    + revert H. unfold SENSORS, init. cbn [build_all Description.service_type].
      rewrite Hg, He. intros [= <-]. auto.
  - revert H. unfold SENSORS, init. cbn [build_all Description.service_type].
    rewrite Hg. intros [= <-]. auto.
Qed.

(** X4.  Two entities built on one coordinator have the same device exactly
    when their descriptions have the same service type. *)
Theorem device_by_service_type (coord : Coordinator) (d1 d2 : Description.t)
  (e1 e2 : Entity) :
  init c coord d1 = Built e1 ->
  init c coord d2 = Built e2 ->
  (attr_device_info e1 = attr_device_info e2
   <-> Description.service_type d1 = Description.service_type d2).
Proof.
  unfold init. intros H1 H2. split.
  - intros E.
    destruct (getitem (SERVICE_TYPE_DEVICE_NAMES c) (Description.service_type d1));
      [|discriminate].
    destruct (getitem (SERVICE_TYPE_DEVICE_NAMES c) (Description.service_type d2));
      [|discriminate].
    injection H1 as <-. injection H2 as <-. cbn in E.
    injection E as E _. apply append_inv_head in E.
    injection E as E. exact E.
  - intros E. rewrite <- E in H2.
    destruct (getitem (SERVICE_TYPE_DEVICE_NAMES c) (Description.service_type d1));
      [|discriminate].
    injection H1 as <-. injection H2 as <-. cbn. now rewrite E.
Qed.

End Glue.

(** ** What a value function raises *)


(** ** The order of the rendering *)

Lemma strict_of_nodup (l : list (datetime * float)) :
  StronglySorted wall_le l ->
  NoDup (map (fun kv => wall (fst kv)) l) ->
  StronglySorted wall_lt l.
Proof.
  induction 1 as [|a l Hs IH Ha]; simpl; intros N; constructor;
    inversion N as [|? ? Hn N']; subst.
  - now apply IH.
  - rewrite Forall_forall in *. intros y Hy.
    specialize (Ha y Hy). unfold wall_le in Ha. unfold wall_lt.
    assert (wall (fst a) <> wall (fst y)).
    { intros E. apply Hn. rewrite E.
      apply (in_map (fun kv => wall (fst kv))), Hy. }
    lia.
Qed.

(** A series has one arrangement in strictly ascending order. *)
Lemma strictly_sorted_unique (l1 l2 : list (datetime * float)) :
  Permutation l1 l2 ->
  StronglySorted wall_lt l1 -> StronglySorted wall_lt l2 -> l1 = l2.
Proof.
  revert l2. induction l1 as [|a l1 IH]; intros l2 P S1 S2.
  - apply Permutation_nil in P. now subst.
  - destruct l2 as [|b l2];
      [apply Permutation_sym, Permutation_nil in P; discriminate|].
    inversion S1 as [|? ? S1' F1]; subst.
    inversion S2 as [|? ? S2' F2]; subst.
    rewrite Forall_forall in F1, F2.
    assert (E : a = b).
    { pose proof (Permutation_in a P (or_introl eq_refl)) as [E | Ia]; [now subst|].
      pose proof (Permutation_in b (Permutation_sym P) (or_introl eq_refl))
        as [E | Ib]; [now subst|].
      specialize (F1 b Ib). specialize (F2 a Ia). unfold wall_lt in *. lia. }
    subst b. f_equal. apply IH; auto.
    now apply Permutation_cons_inv in P.
Qed.

Lemma sorted_strictly (l : list (datetime * float)) :
  NoDup (map (fun kv => wall (fst kv)) l) ->
  StronglySorted wall_lt (sorted tuple_lt l).
Proof.
  intros N. apply strict_of_nodup; [apply sorted_by_wall|].
  eapply Permutation_NoDup; [|exact N].
  apply Permutation_map, Permutation_sym, sorted_perm.
Qed.

Lemma local_walls_map (env : Env) (prices : dict datetime float) :
  local_walls env prices
  = map (fun kv => wall (fst kv)) (map (localize env) prices).
Proof. unfold local_walls. now rewrite map_map. Qed.

(** X7.  The rendering does not depend on the order in which the series
    holds its entries, as long as no two keys fall on the same local wall
    clock. *)
Theorem rendering_ignores_insertion_order (env : Env) (hass : HomeAssistant)
  (data data' : EnergyZeroData) :
  Permutation (Electricity.prices (energy_today data))
              (Electricity.prices (energy_today data')) ->
  NoDup (local_walls env (Electricity.prices (energy_today data))) ->
  rendered env hass data = rendered env hass data'.
Proof.
  intros P N. unfold rendered. rewrite !process_timestamp_prices_run.
  cbn [fst]. do 3 f_equal.
  assert (P' : Permutation
                 (map (localize env) (Electricity.prices (energy_today data)))
                 (map (localize env) (Electricity.prices (energy_today data'))))
    by now apply Permutation_map.
  rewrite local_walls_map in N.
  apply strictly_sorted_unique.
  - now rewrite !sorted_perm.
  - now apply sorted_strictly.
  - apply sorted_strictly. eapply Permutation_NoDup; [|exact N].
    now apply Permutation_map.
Qed.

(** The sample series and the same entries in another order. *)
Lemma rendering_ignores_insertion_order_witness :
  Permutation Sample.three_hours (rev Sample.three_hours)
  /\ NoDup (local_walls env_plus1 Sample.three_hours)
  /\ rendered env_plus1 hass_plus1 (snapshot Sample.three_hours None)
     = rendered env_plus1 hass_plus1 (snapshot (rev Sample.three_hours) None).
Proof.
  assert (P : Permutation Sample.three_hours (rev Sample.three_hours))
    by apply Permutation_rev.
  assert (N : NoDup (local_walls env_plus1 Sample.three_hours)).
  { repeat constructor; cbn; intuition discriminate. }
  split; [exact P|]. split; [exact N|].
  exact (rendering_ignores_insertion_order env_plus1 hass_plus1
           (snapshot Sample.three_hours None)
           (snapshot (rev Sample.three_hours) None) P N).
Defined.

(** ** Zones of one offset *)




(** ** A day of consecutive hours *)








(** ** The printed price *)

Lemma round_half_even_near (n d : Z) :
  0 < d ->
  2 * Z.abs (round_half_even n d * d - n) <= d
  /\ (2 * Z.abs (round_half_even n d * d - n) = d ->
      Z.even (round_half_even n d) = true).
Proof.
  intros Hd. unfold round_half_even.
  pose proof (Z.div_mod n d ltac:(lia)) as E.
  pose proof (Z.mod_pos_bound n d Hd) as B.
  set (q := n / d) in *. set (r := n mod d) in *.
  destruct (Z.ltb_spec (2 * r) d) as [L|L].
  - split; [nia | intros T; nia].
  - destruct (Z.ltb_spec d (2 * r)) as [G|G].
    + split; [nia | intros T; nia].
    + destruct (Z.even q) eqn:Ev.
      * split; [nia | auto].
      * split; [nia|]. intros _.
        rewrite Z.even_add, Ev. reflexivity.
Qed.

(** X10.  A finite price is printed as the nearest whole number of cents,
    at most half a cent away, with ties going to the even cent; a price
    without fractional bits is printed exactly. *)
Theorem price_printed_to_nearest_cent (s : bool) (m : positive) (e : Z) :
  let cents := hundredths m e in
  format_2f (S754_finite s m e)
  = sign_str s ++ decimal (cents / 100) ++ "."
    ++ decimal (cents mod 100 / 10) ++ decimal (cents mod 10)
  /\ 0 <= cents
  /\ (0 <= e -> cents = Z.pos m * 2 ^ e * 100)
  /\ (e < 0 ->
      2 * Z.abs (cents * 2 ^ (- e) - 100 * Z.pos m) <= 2 ^ (- e)
      /\ (2 * Z.abs (cents * 2 ^ (- e) - 100 * Z.pos m) = 2 ^ (- e) ->
          Z.even cents = true)).
Proof.
  cbv zeta. split; [reflexivity|].
  unfold hundredths. destruct (Z.leb_spec 0 e) as [P|N].
  - split; [|split; [reflexivity | lia]].
    pose proof (Z.pow_nonneg 2 e ltac:(lia)). nia.
  - assert (D : 0 < 2 ^ (- e)) by (apply Z.pow_pos_nonneg; lia).
    pose proof (round_half_even_near (Z.pos m * 100) (2 ^ (- e)) D) as [A T].
    split; [|split; [lia|]].
    + set (c := round_half_even (Z.pos m * 100) (2 ^ (- e))) in *.
      destruct (Z.le_gt_cases 0 c) as [|G]; [assumption|]. nia.
    + intros _. replace (100 * Z.pos m) with (Z.pos m * 100) by ring.
      split; assumption.
Qed.

(** The literal 0.24: 24 cents, and no tie. *)
Lemma price_printed_to_nearest_cent_witness :
  hundredths 8646911284551352 (-55) = 24
  /\ format_2f f024 = "0.24"
  /\ 2 * Z.abs (hundredths 8646911284551352 (-55) * 2 ^ 55
                - 100 * 8646911284551352) <= 2 ^ 55.
Proof.
  split; [reflexivity|]. split; [reflexivity|].
  exact (proj1 (proj2 (proj2 (proj2 (price_printed_to_nearest_cent
                                       false 8646911284551352 (-55))))
                  eq_refl)).
Defined.

(** ** Samples of set-up *)

(** Set-up on the sample platform: twelve entities with distinct ids. *)
Lemma setup_builds_distinct_entities_witness :
  getitem sample_hass_data (DOMAIN sample_const)
  = Some [("0123abcd", sample_coordinator)]
  /\ getitem (SERVICE_TYPE_DEVICE_NAMES sample_const) "today_gas"
     = Some "Gas market price"
  /\ getitem (SERVICE_TYPE_DEVICE_NAMES sample_const) "today_energy"
     = Some "Energy market price"
  /\ exists ents,
       async_setup_entry Sample.env Sample.models sample_const sample_hass_data
         {| entry_id := "0123abcd" |} = Built ents
       /\ List.length ents = 12%nat
       /\ map entity_description ents
          = SENSORS Sample.env Sample.models sample_const
       /\ Forall (fun e => coordinator e = sample_coordinator) ents
       /\ NoDup (map entity_id ents)
       /\ NoDup (map attr_unique_id ents).
Proof.
  split; [reflexivity|]. split; [reflexivity|]. split; [reflexivity|].
  exact (setup_builds_distinct_entities Sample.env Sample.models sample_const
           sample_hass_data {| entry_id := "0123abcd" |}
           [("0123abcd", sample_coordinator)] sample_coordinator
           "Gas market price" "Energy market price"
           eq_refl eq_refl eq_refl eq_refl).
Defined.

(** Set-up for an entry the platform holds no coordinator for. *)
Lemma setup_fails_on_missing_key_witness :
  async_setup_entry Sample.env Sample.models sample_const sample_hass_data
    {| entry_id := "ffff0000" |} = KeyError "ffff0000"
  /\ ((getitem sample_hass_data (DOMAIN sample_const) = None
       /\ "ffff0000" = DOMAIN sample_const)
      \/ (exists entries,
            getitem sample_hass_data (DOMAIN sample_const) = Some entries
            /\ getitem entries "ffff0000" = None /\ "ffff0000" = "ffff0000")
      \/ (getitem (SERVICE_TYPE_DEVICE_NAMES sample_const) "ffff0000" = None
          /\ ("ffff0000" = "today_gas" \/ "ffff0000" = "today_energy"))).
Proof.
  split; [reflexivity|].
  exact (setup_fails_on_missing_key Sample.env Sample.models sample_const
           sample_hass_data {| entry_id := "ffff0000" |} "ffff0000" eq_refl).
Defined.

(** The two gas sensors of the table share a device; the first gas sensor
    and the first electricity sensor do not. *)
Lemma device_by_service_type_witness :
  exists d1 d2 d3 e1 e2 e3,
    nth_error (SENSORS Sample.env Sample.models sample_const) 0 = Some d1
    /\ nth_error (SENSORS Sample.env Sample.models sample_const) 1 = Some d2
    /\ nth_error (SENSORS Sample.env Sample.models sample_const) 2 = Some d3
    /\ init sample_const sample_coordinator d1 = Built e1
    /\ init sample_const sample_coordinator d2 = Built e2
    /\ init sample_const sample_coordinator d3 = Built e3
    /\ attr_device_info e1 = attr_device_info e2
    /\ attr_device_info e1 <> attr_device_info e3.
Proof.
  do 6 eexists.
  split; [reflexivity|]. split; [reflexivity|]. split; [reflexivity|].
  split; [reflexivity|]. split; [reflexivity|]. split; [reflexivity|].
  split.
  - match goal with
    | |- attr_device_info ?a = attr_device_info ?b =>
        exact (proj2 (device_by_service_type sample_const sample_coordinator
                        (entity_description a) (entity_description b) a b
                        eq_refl eq_refl) eq_refl)
    end.
  - match goal with
    | |- attr_device_info ?a <> attr_device_info ?b =>
        intros E;
        pose proof (proj1 (device_by_service_type sample_const sample_coordinator
                             (entity_description a) (entity_description b) a b
                             eq_refl eq_refl) E) as T
    end.
    cbn [Description.service_type entity_description] in T. discriminate T.
Defined.

(** ** The zone of the conversion *)




(** ** The steps that can raise *)

Section StrictRendering.

Variable p : Strict.Platform.

Lemma strict_as_local_utc (k : datetime) (v : float) :
  Strict.as_local p (replace_tzinfo k (Some UTC))
  = if Strict.in_range p (k, v)
    then Ok (as_local (Strict.env p) (replace_tzinfo k (Some UTC)))
    else Raise OverflowError.
Proof.
  unfold Strict.as_local, Strict.in_range, localize, replace_tzinfo.
  cbn [dt_tzinfo wall fst utcoffset UTC]. now rewrite Z.sub_0_r.
Qed.

Lemma convert_all_in_range (l : list (datetime * float)) :
  forallb (Strict.in_range p) l = true ->
  Strict.convert_all p l = Ok (map (localize (Strict.env p)) l).
Proof.
  induction l as [|[k v] l IH]; [reflexivity|].
  cbn [forallb]. rewrite andb_true_iff. intros [H Hl].
  cbn [Strict.convert_all map]. rewrite (strict_as_local_utc k v), H, IH by exact Hl.
  reflexivity.
Qed.

Lemma convert_all_out_of_range (l : list (datetime * float)) :
  forallb (Strict.in_range p) l = false ->
  Strict.convert_all p l = Raise OverflowError.
Proof.
  induction l as [|[k v] l IH]; [discriminate|].
  cbn [forallb Strict.convert_all]. rewrite (strict_as_local_utc k v).
  destruct (Strict.in_range p (k, v)); [|reflexivity].
  cbn [andb]. intros H. now rewrite IH.
Qed.

(** What [process_timestamp_prices] does with the steps that can raise:
    the look-up first, then the conversions, then the rendering of the
    returning path. *)
Lemma strict_process_timestamp_prices_run (hass : HomeAssistant)
  (data : EnergyZeroData) :
  Strict.process_timestamp_prices p hass data
  = (if Strict.well_formed p (time_zone (config hass))
     then if forallb (Strict.in_range p) (Electricity.prices (energy_today data))
          then rendered (Strict.env p) hass data
          else Raise OverflowError
     else Raise ValueError,
     data).
Proof.
  unfold Strict.process_timestamp_prices, Strict.get_time_zone, Strict.lift,
    bind, attr, ret, items, rendered.
  destruct (Strict.well_formed p (time_zone (config hass))); [|reflexivity].
  destruct (forallb (Strict.in_range p) (Electricity.prices (energy_today data)))
    eqn:R.
  - rewrite (convert_all_in_range _ R), process_timestamp_prices_run.
    cbn [fst].
    rewrite (map_ext (fun '(k, v) => format_02d (hour k) ++ ":" ++ format_2f v)
               token) by (now intros [k v]).
    reflexivity.
  - now rewrite (convert_all_out_of_range _ R).
Qed.

(** C4, as amended.  When the configured name is a well-formed key, so that
    its look-up returns, the empty series renders to the empty string, and
    every series whose keys stay in the range of [datetime], as instants
    and on the local wall clock, renders to a string: the one of the
    returning path. *)
Theorem render_empty_and_returns (hass : HomeAssistant) :
  Strict.well_formed p (time_zone (config hass)) = true ->
  (forall gas, Strict.rendered p hass (snapshot [] gas) = Ok "")
  /\ (forall data,
        forallb (Strict.in_range p) (Electricity.prices (energy_today data)) = true ->
        Strict.rendered p hass data = rendered (Strict.env p) hass data
        /\ always_returns_string p hass data).
Proof.
  intros W. split.
  - intros gas. unfold Strict.rendered.
    rewrite strict_process_timestamp_prices_run, W. reflexivity.
  - intros data R.
    assert (E : Strict.rendered p hass data = rendered (Strict.env p) hass data).
    { unfold Strict.rendered.
      rewrite strict_process_timestamp_prices_run, W, R. reflexivity. }
    split; [exact E|]. unfold always_returns_string. rewrite E.
    unfold rendered. rewrite process_timestamp_prices_run. eexists. reflexivity.
Qed.


End StrictRendering.

(** X11.  The rendering reads the platform object only for whether the
    look-up of its zone name raises, and the default time zone only through
    its offsets at the instants of the keys: the zone looked up, the clock,
    the time zone data base and the gas series do not enter. *)
Theorem rendering_reads_offsets_at_keys (p p' : Strict.Platform)
  (hass hass' : HomeAssistant) (data data' : EnergyZeroData) :
  Electricity.prices (energy_today data) = Electricity.prices (energy_today data') ->
  Strict.well_formed p (time_zone (config hass))
  = Strict.well_formed p' (time_zone (config hass')) ->
  Strict.datetime_min p = Strict.datetime_min p' ->
  Strict.datetime_max p = Strict.datetime_max p' ->
  Forall (fun kv =>
            utcoffset_at (DEFAULT_TIME_ZONE (Strict.env p)) (wall (fst kv))
            = utcoffset_at (DEFAULT_TIME_ZONE (Strict.env p')) (wall (fst kv)))
         (Electricity.prices (energy_today data)) ->
  Strict.rendered p hass data = Strict.rendered p' hass' data'.
Proof.
  destruct data as [[prices] g], data' as [[prices'] g'].
  cbn [energy_today Electricity.prices]. intros <- W Mn Mx O.
  unfold Strict.rendered. rewrite !strict_process_timestamp_prices_run.
  cbn [fst energy_today Electricity.prices]. rewrite <- W.
  rewrite Forall_forall in O.
  assert (L : forall kv, In kv prices ->
                         localize (Strict.env p) kv = localize (Strict.env p') kv).
  { intros kv Hkv. rewrite !localize_wall. now rewrite (O kv Hkv). }
  assert (R : forallb (Strict.in_range p) prices
              = forallb (Strict.in_range p') prices).
  { clear O. induction prices as [|kv l IH]; [reflexivity|].
    cbn [forallb]. rewrite IH by (intros kv' Hkv'; apply L; now right).
    f_equal. unfold Strict.in_range, Strict.in_datetime_range.
    rewrite (L kv (or_introl eq_refl)), Mn, Mx. reflexivity. }
  rewrite <- R.
  destruct (Strict.well_formed p (time_zone (config hass))); [|reflexivity].
  destruct (forallb (Strict.in_range p) prices); [|reflexivity].
  unfold rendered. rewrite !process_timestamp_prices_run.
  cbn [fst energy_today Electricity.prices].
  rewrite (map_ext_in _ _ _ L). reflexivity.
Qed.


(** The sample series one hour east of UTC, under a name that is a key. *)
Lemma render_empty_and_returns_witness :
  Strict.well_formed platform_plus1 (time_zone (config hass_plus1)) = true
  /\ forallb (Strict.in_range platform_plus1) Sample.three_hours = true
  /\ Strict.rendered platform_plus1 hass_plus1 (snapshot [] None) = Ok ""
  /\ Strict.rendered platform_plus1 hass_plus1 (snapshot Sample.three_hours None)
     = Ok "01:0.20,02:0.50,03:0.10"
  /\ always_returns_string platform_plus1 hass_plus1
       (snapshot Sample.three_hours None).
Proof.
  split; [reflexivity|]. split; [reflexivity|].
  destruct (render_empty_and_returns platform_plus1 hass_plus1 eq_refl)
    as [E R].
  split; [exact (E None)|]. split; [reflexivity|].
  exact (proj2 (R (snapshot Sample.three_hours None) eq_refl)).
Defined.

(** C4, as the specification words it, fails: with a configured zone name
    that is no key of the data base the look-up raises, and the empty series
    renders to no string. *)
Lemma render_empty_and_returns_counterexample :
  Strict.rendered platform_utc hass_malformed (snapshot [] None) = Raise ValueError
  /\ ~ always_returns_string platform_utc hass_malformed (snapshot [] None).
Proof.
  split; [reflexivity|].
  intros [s H]. vm_compute in H. discriminate H.
Qed.


(** The sample series on a platform that names UTC+1 while the default
    time zone is UTC: the hours are those of UTC. *)
Lemma rendering_reads_offsets_at_keys_witness :
  Strict.well_formed platform_utc (time_zone (config hass_plus1))
  = Strict.well_formed platform_utc (time_zone (config hass_utc))
  /\ Strict.rendered platform_utc hass_plus1 (snapshot Sample.three_hours None)
     = Strict.rendered platform_utc hass_utc
         (snapshot Sample.three_hours (Some Sample.gas))
  /\ Strict.rendered platform_utc hass_plus1 (snapshot Sample.three_hours None)
     = Ok "00:0.20,01:0.50,02:0.10".
Proof.
  split; [reflexivity|]. split; [|reflexivity].
  refine (rendering_reads_offsets_at_keys platform_utc platform_utc
            hass_plus1 hass_utc (snapshot Sample.three_hours None)
            (snapshot Sample.three_hours (Some Sample.gas))
            eq_refl eq_refl eq_refl eq_refl _).
  repeat constructor.
Defined.
